(** * tools/train_net.py: the train-or-evaluate driver of d2go

    A shallow embedding of [main] and [run_with_cmdline_args].  The driver
    owns no data of its own: everything it does is a call on a
    collaborator (the runner, the checkpointer, the config node, the
    helpers of [d2go.setup] and [d2go.utils.misc]).  The embedding
    therefore keeps the program as a tree of such calls, and gives it a
    meaning by running the tree against an arbitrary handler that answers
    each call and may raise.  The handler also threads the state of the
    outside world, so that a collaborator can mutate what it likes (the
    config node included) between two calls. *)

From stdpp Require Import base option list strings gmap fin_maps pretty.
From Stdlib Require Import ZArith.

Open Scope string_scope.
Open Scope list_scope.

(** ** Python values *)

(** A Python object that the driver only passes around (the config node,
    the runner, a model, a checkpointer, a metrics table) is the identity
    of that object. *)
Definition ref : Set := positive.

(** The values the driver looks at: config entries and checkpoint
    entries. *)
Inductive value : Set :=
| VNone
| VBool (b : bool)
| VInt (z : Z)
| VStr (s : string)
| VObj (o : ref).

#[global] Instance value_eq_dec : EqDecision value.
Proof. solve_decision. Defined.

(** An exception object: its class and its message. *)
Record exn : Set := PyExn { exn_class : string; exn_msg : string }.

#[global] Instance exn_eq_dec : EqDecision exn.
Proof. solve_decision. Defined.

(** [d.get(key, default)] on a dict with string keys. *)
Definition dict_get (d : gmap string value) (key : string) (dflt : value) : value :=
  default dflt (d !! key).

(** The dict [main] returns, with its three keys. *)
Record RunResult : Type := mkRunResult {
  accuracy : ref;
  model_configs : gmap string string;
  metrics : ref
}.

(** The [argparse] namespace read by [run_with_cmdline_args]. *)
Record Namespace : Set := mkNamespace {
  config_file : string;
  ns_output_dir : string;
  ns_runner : string;
  num_processes : Z;
  num_machines : Z;
  machine_rank : Z;
  dist_url : string;
  dist_backend : string;
  ns_eval_only : bool;
  ns_resume : bool
}.

(** ** Calls on collaborators *)

Inductive call : Type :=
(* d2go.setup *)
| setup_after_launch (cfg : ref) (output_dir : string) (runner : option ref)
| prepare_for_launch (args : Namespace)
| post_mortem (e : exn)
(* the runner *)
| build_model (runner cfg : ref)
| build_checkpointer (runner cfg model : ref) (save_dir : string)
| do_train (runner cfg model : ref) (resume : bool)
| do_test (runner cfg model : ref) (train_iter : option value)
(* the checkpointer *)
| has_checkpoint (checkpointer : ref)
| resume_or_load (checkpointer : ref) (path : value) (resume : bool)
| load (checkpointer : ref) (path : value)
(* the model and the config node *)
| model_eval (model : ref)
| cfg_get (cfg : ref) (path : list string)
(* logging and printing *)
| logger_info_model (model : ref)
| print_metrics_table (metrics : ref)
(* detectron2 *)
| create_ddp_model (model : ref) (fp16_compression : value)
    (device_ids : option (list Z)) (broadcast_buffers : bool)
    (find_unused_parameters : value)
| get_local_rank
(* writing one trained config under the output directory *)
| dump_config (output_dir : value) (name : string) (trained_cfg : ref).

(** What each call hands back when it does not raise. *)
Definition ret_type (c : call) : Type :=
  match c with
  | setup_after_launch _ _ _ => unit
  | prepare_for_launch _ => (ref * string * ref)%type
  | post_mortem _ => unit
  | build_model _ _ => ref
  | build_checkpointer _ _ _ _ => ref
  | do_train _ _ _ _ => gmap string ref
  | do_test _ _ _ _ => ref
  | has_checkpoint _ => bool
  | resume_or_load _ _ _ => gmap string value
  | load _ _ => gmap string value
  | model_eval _ => unit
  | cfg_get _ _ => value
  | logger_info_model _ => unit
  | print_metrics_table _ => unit
  | create_ddp_model _ _ _ _ _ => ref
  | get_local_rank => Z
  | dump_config _ _ _ => string
  end.

(** ** Programs *)

(** A program returns, raises, or calls a collaborator and goes on with
    what came back: a value or an exception. *)
Inductive prog (A : Type) : Type :=
| Ret (a : A)
| Raise (e : exn)
| Call (c : call) (k : exn + ret_type c → prog A).

Arguments Ret {A} a.
Arguments Raise {A} e.
Arguments Call {A} c k.

Fixpoint bind {A B : Type} (p : prog A) (f : A → prog B) : prog B :=
  match p with
  | Ret a => f a
  | Raise e => Raise e
  | Call c k => Call c (λ r, bind (k r) f)
  end.

#[global] Instance prog_ret : MRet prog := λ A a, Ret a.
#[global] Instance prog_bind : MBind prog := λ A B f p, bind p f.

(** A call outside any [try]: an exception of the callee goes up. *)
Definition perform (c : call) : prog (ret_type c) :=
  Call c (λ r, match r with inl e => Raise e | inr x => Ret x end).

(** [try: p  except Exception as e: h e]. *)
Fixpoint try_except {A : Type} (p : prog A) (h : exn → prog A) : prog A :=
  match p with
  | Ret a => Ret a
  | Raise e => h e
  | Call c k => Call c (λ r, try_except (k r) h)
  end.

(** ** Running a program *)

(** One entry of the log: the call and what came back. *)
Record event : Type := Ev { ev_call : call; ev_out : exn + ret_type ev_call }.

Record outcome (W A : Type) : Type := Out {
  out_trace : list event;
  out_result : exn + A;
  out_world : W
}.

Arguments Out {W A} _ _ _.
Arguments out_trace {W A} _.
Arguments out_result {W A} _.
Arguments out_world {W A} _.

(** The outside world: it answers every call from its current state and
    moves to a new state. *)
Definition handler (W : Type) : Type :=
  ∀ c : call, W → (exn + ret_type c) * W.

Fixpoint run {W A : Type} (h : handler W) (p : prog A) (w : W) : outcome W A :=
  match p with
  | Ret a => Out [] (inr a) w
  | Raise e => Out [] (inl e) w
  | Call c k =>
      let r := h c w in
      let o := run h (k r.1) r.2 in
      Out (Ev c r.1 :: out_trace o) (out_result o) (out_world o)
  end.

(** The outcome [o], reached after the calls [pre] were already made. *)
Definition after {W A : Type} (pre : list event) (o : outcome W A) : outcome W A :=
  Out (pre ++ out_trace o) (out_result o) (out_world o).

(** ** The helpers of this repository that [train_net.py] imports *)

(** The items of a dict of trained configs, dumped one after the other:
    each write hands back the path it materialized, kept under the
    item's name. *)
Fixpoint dump_each (output_dir : value) (items : list (string * ref))
  : prog (gmap string string) :=
  match items with
  | [] => mret ∅
  | (name, trained_cfg) :: rest =>
      config_file ← perform (dump_config output_dir name trained_cfg);
      trained_model_configs ← dump_each output_dir rest;
      mret (<[name := config_file]> trained_model_configs)
  end.

(** Modelled from the spec: [d2go.utils.misc.dump_trained_model_configs]
    is imported by [train_net.py] and its body is not among the sources.
    The spec has it dump each trained sub-model's config to the output
    directory and return the mapping from the sub-model's logical name to
    the materialized configuration path, one entry per name.  The items
    are visited in the order of [map_to_list], not in the dict's insertion
    order; nothing below depends on the order. *)
Definition dump_trained_model_configs (output_dir : value)
    (trained_cfgs : gmap string ref) : prog (gmap string string) :=
  dump_each output_dir (map_to_list trained_cfgs).

(** The positional arguments [launch] hands to the entry point:
    [(cfg, output_dir, runner, eval_only, resume)]. *)
Definition main_args : Type := (ref * string * option ref * bool * bool)%type.

Definition entry_point : Type := main_args → prog RunResult.

(** Modelled from the spec: [d2go.setup.post_mortem_if_fail_for_main] is
    imported by [train_net.py] and its body is not among the sources.  The
    spec has it wrap the entry point in an interceptor that, on an
    unhandled error, enters post-mortem inspection and then re-raises that
    error, and that does nothing when the entry point completes. *)
Definition post_mortem_if_fail_for_main (main_func : entry_point) : entry_point :=
  λ args,
    try_except (main_func args)
      (λ e, Call (post_mortem e) (λ _, Raise e)).

(** ** [main] *)

(** [runner.<method>]: the default [runner=None] has no attributes. *)
Definition runner_attr (runner : option ref) (method : string) : prog ref :=
  match runner with
  | Some r => mret r
  | None =>
      Raise (PyExn "AttributeError"
               ("'NoneType' object has no attribute '" +:+ method +:+ "'"))
  end.

Definition main (cfg : ref) (output_dir : string) (runner : option ref)
    (eval_only resume : bool) : prog RunResult :=
  perform (setup_after_launch cfg output_dir runner);;
  runner ← runner_attr runner "build_model";
  model ← perform (build_model runner cfg);
  perform (logger_info_model model);;
  if eval_only then
    checkpointer ← perform (build_checkpointer runner cfg model output_dir);
    resuming ← (if resume then perform (has_checkpoint checkpointer)
                else mret false);
    checkpoint ←
      (if resuming : bool then
         weights ← perform (cfg_get cfg ["MODEL"; "WEIGHTS"]);
         perform (resume_or_load checkpointer weights resume)
       else
         weights ← perform (cfg_get cfg ["MODEL"; "WEIGHTS"]);
         perform (load checkpointer weights));
    let train_iter := dict_get checkpoint "iteration" VNone in
    perform (model_eval model);;
    metrics ← perform (do_test runner cfg model (Some train_iter));
    perform (print_metrics_table metrics);;
    mret {| accuracy := metrics; model_configs := ∅; metrics := metrics |}
  else
    fp16_compression ← perform (cfg_get cfg ["MODEL"; "DDP_FP16_GRAD_COMPRESS"]);
    device ← perform (cfg_get cfg ["MODEL"; "DEVICE"]);
    device_ids ←
      (if decide (device = VStr "cpu") then mret None
       else local_rank ← perform get_local_rank; mret (Some [local_rank]));
    find_unused_parameters ←
      perform (cfg_get cfg ["MODEL"; "DDP_FIND_UNUSED_PARAMETERS"]);
    model ← perform (create_ddp_model model fp16_compression device_ids
                       false find_unused_parameters);
    trained_cfgs ← perform (do_train runner cfg model resume);
    metrics ← perform (do_test runner cfg model None);
    perform (print_metrics_table metrics);;
    cfg_output_dir ← perform (cfg_get cfg ["OUTPUT_DIR"]);
    trained_model_configs ← dump_trained_model_configs cfg_output_dir trained_cfgs;
    mret {| accuracy := metrics;
            model_configs := trained_model_configs;
            metrics := metrics |}.

(** The entry point as [launch] applies it: [main] on the unpacked
    argument tuple. *)
Definition main_entry : entry_point :=
  λ '(cfg, output_dir, runner, eval_only, resume),
    main cfg output_dir runner eval_only resume.

(** ** [run_with_cmdline_args] *)

Section Launch.

(** [d2go.distributed.launch] is imported and its body is not among the
    sources; [run_with_cmdline_args] is read against every launcher of
    the spec's interface: entry point, topology and entry arguments in,
    a [RunResult] (the leader's) or an exception out. *)
Variable launch :
  entry_point → Z → Z → Z → string → string → main_args → prog RunResult.

(** The function has no [return]: it hands back Python's [None]. *)
Definition run_with_cmdline_args (args : Namespace) : prog (option RunResult) :=
  '(cfg, output_dir, runner) ← perform (prepare_for_launch args);
  launch (post_mortem_if_fail_for_main main_entry)
    (num_processes args) (num_machines args) (machine_rank args)
    (dist_url args) (dist_backend args)
    (cfg, output_dir, Some runner, ns_eval_only args, ns_resume args);;
  mret None.

End Launch.

(** The entry point run in [n] workers, one after the other, the leader
    first (the interleaving of the workers is not part of the model). *)
Fixpoint run_workers (entry : entry_point) (n : nat) (args : main_args)
  : prog (list RunResult) :=
  match n with
  | O => mret []
  | S n' =>
      r ← entry args;
      rs ← run_workers entry n' args;
      mret (r :: rs)
  end.

(** Modelled from the spec: [d2go.distributed.launch] is imported by
    [train_net.py] and its body is not among the sources.  The spec has
    it spawn the local workers, run the entry point in each with the entry
    arguments, and yield only the leader's return value; a group that
    cannot be formed is a [LaunchFailure]. *)
Definition launch_workers (entry : entry_point)
    (num_processes_per_machine num_machines machine_rank : Z)
    (dist_url backend : string) (args : main_args) : prog RunResult :=
  results ← run_workers entry (Z.to_nat num_processes_per_machine) args;
  match results with
  | leader :: _ => mret leader
  | [] => Raise (PyExn "LaunchFailure" "no worker process was started")
  end.

(** C4, as claimed: whatever result the launcher yields for the leader is
    what [run_with_cmdline_args] hands back. *)
Definition hands_back_leader_result {W : Type} (h : handler W)
    (launch : entry_point → Z → Z → Z → string → string → main_args
              → prog RunResult)
    (args : Namespace) (w : W) : Prop :=
  ∀ cfg output_dir runner w' leader,
    h (prepare_for_launch args) w = (inr (cfg, output_dir, runner), w') →
    out_result
      (run h (launch (post_mortem_if_fail_for_main main_entry)
                (num_processes args) (num_machines args) (machine_rank args)
                (dist_url args) (dist_backend args)
                (cfg, output_dir, Some runner, ns_eval_only args, ns_resume args))
         w') = inr leader →
    out_result (run h (run_with_cmdline_args launch args) w) = inr (Some leader).

(** ** Reading a log *)

Definition calls (tr : list event) : list call := map ev_call tr.

(** The calls of a log that satisfy [f], in order. *)
Definition calls_where (f : call → bool) (tr : list event) : list call :=
  List.filter f (calls tr).

Definition count_calls (f : call → bool) (tr : list event) : nat :=
  length (calls_where f tr).

(** Call [c] is in the log and came back with [x]. *)
Definition returned (tr : list event) (c : call) (x : ret_type c) : Prop :=
  In (Ev c (inr x)) tr.

(** The call of this entry came back without raising. *)
Definition came_back (ev : event) : bool :=
  match ev_out ev with inl _ => false | inr _ => true end.

(** Every call of the log came back without raising. *)
Definition no_call_raised (tr : list event) : Prop :=
  forallb came_back tr = true.

Definition is_do_train (c : call) : bool :=
  match c with do_train _ _ _ _ => true | _ => false end.

Definition is_do_test (c : call) : bool :=
  match c with do_test _ _ _ _ => true | _ => false end.

(** The two phases of the runner. *)
Definition is_phase (c : call) : bool := is_do_train c || is_do_test c.

Definition is_resume_or_load (c : call) : bool :=
  match c with resume_or_load _ _ _ => true | _ => false end.

Definition is_load (c : call) : bool :=
  match c with load _ _ => true | _ => false end.

(** Either way of loading a checkpoint. *)
Definition is_loading (c : call) : bool := is_resume_or_load c || is_load c.

Definition is_create_ddp_model (c : call) : bool :=
  match c with create_ddp_model _ _ _ _ _ => true | _ => false end.

Definition is_dump_config (c : call) : bool :=
  match c with dump_config _ _ _ => true | _ => false end.

(** What a [has_checkpoint] call answered, for an entry that is one. *)
Definition has_checkpoint_reply (ev : event) : option bool :=
  match ev with
  | Ev c out =>
      match c return exn + ret_type c → option bool with
      | has_checkpoint _ =>
          λ out, match out with inr b => Some b | inl _ => None end
      | _ => λ _, None
      end out
  end.

(** ** A small world to run the driver in *)

Module Sample.

Record world : Type := World {
  w_has_checkpoint : bool;
  w_device : value;
  w_saved : gmap string value;
  w_trained : gmap string ref;
  w_train_error : option exn
}.

Definition answer (c : call) (w : world) : (exn + ret_type c) * world :=
  match c return (exn + ret_type c) * world with
  | setup_after_launch _ _ _ => (inr (), w)
  | prepare_for_launch args => (inr (1%positive, ns_output_dir args, 2%positive), w)
  | post_mortem _ => (inr (), w)
  | build_model _ _ => (inr 10%positive, w)
  | build_checkpointer _ _ _ _ => (inr 20%positive, w)
  | do_train _ _ _ _ =>
      match w_train_error w with
      | Some e => (inl e, w)
      | None =>
          (inr (w_trained w),
           World true (w_device w) (<["iteration" := VInt 90000]> (w_saved w))
             (w_trained w) None)
      end
  | do_test _ _ _ _ => (inr 30%positive, w)
  | has_checkpoint _ => (inr (w_has_checkpoint w), w)
  | resume_or_load _ _ _ => (inr (w_saved w), w)
  | load _ _ => (inr ∅, w)
  | model_eval _ => (inr (), w)
  | cfg_get _ path =>
      if decide (path = ["MODEL"; "DEVICE"]) then (inr (w_device w), w)
      else if decide (path = ["MODEL"; "WEIGHTS"]) then (inr (VStr "model_final.pth"), w)
      else if decide (path = ["OUTPUT_DIR"]) then (inr (VStr "/out"), w)
      else (inr (VBool false), w)
  | logger_info_model _ => (inr (), w)
  | print_metrics_table _ => (inr (), w)
  | create_ddp_model model _ _ _ _ => (inr (model + 1)%positive, w)
  | get_local_rank => (inr 3%Z, w)
  | dump_config _ name _ => (inr ("/out/trained_model_configs/" +:+ name +:+ ".yaml"), w)
  end.

Definition cfg : ref := 1%positive.
Definition runner : ref := 2%positive.

(** No checkpoint yet, a GPU, one trained sub-model. *)
Definition fresh : world :=
  World false (VStr "cuda") ∅ {["model" := 40%positive]} None.

(** A checkpoint at iteration 500 in the output directory. *)
Definition resumable : world :=
  World true (VStr "cuda") {["iteration" := VInt 500]} {["model" := 40%positive]} None.


(** Training runs out of memory. *)
Definition oom : exn := PyExn "RuntimeError" "CUDA out of memory".

Definition failing : world :=
  World false (VStr "cuda") ∅ {["model" := 40%positive]} (Some oom).

Definition args : Namespace :=
  mkNamespace "config.yaml" "/out" "d2go.runner.GeneralizedRCNNRunner"
    1 1 0 "file:///tmp/d2go_dist_file" "NCCL" false false.

(** What [main] returns in this world when it evaluates only. *)
Definition eval_result : RunResult :=
  mkRunResult 30%positive ∅ 30%positive.

(** What [main] returns in this world after training. *)
Definition train_result : RunResult :=
  mkRunResult 30%positive
    {["model" := "/out/trained_model_configs/model.yaml"]} 30%positive.


(** The runs looked at below. *)
Definition eval_run (resume : bool) (w : world) : outcome world RunResult :=
  run answer (main cfg "/out" (Some runner) true resume) w.

Definition train_run (w : world) : outcome world RunResult :=
  run answer (main cfg "/out" (Some runner) false false) w.

Definition entry_args : main_args := (cfg, "/out", Some runner, false, false).

End Sample.


(** ** [build_cli_args] *)

(** An argument annotated [Union[int, str]]. *)
Inductive int_or_str : Set :=
| AnInt (z : Z)
| AStr (s : string).

(** Python's [str] on such an argument: the decimal writing of an int, a
    string as it is. *)
Definition str (v : int_or_str) : string :=
  match v with
  | AnInt z => pretty z
  | AStr s => s
  end.

Definition build_cli_args (config_path output_dir : string)
    (runner_name : option string)
    (num_processes num_machines machine_rank : option int_or_str)
    (dist_url dist_backend : option string)
    (eval_only resume : bool) : list string :=
  let args := ["--config-file"; config_path; "--output-dir"; output_dir] in
  let args :=
    match runner_name with
    | Some runner_name => args ++ ["--runner"; runner_name]
    | None => args
    end in
  let args :=
    match num_processes with
    | Some num_processes => args ++ ["--num-processes"; str num_processes]
    | None => args
    end in
  let args :=
    match num_machines with
    | Some num_machines => args ++ ["--num-machines"; str num_machines]
    | None => args
    end in
  let args :=
    match machine_rank with
    | Some machine_rank => args ++ ["--machine-rank"; str machine_rank]
    | None => args
    end in
  let args :=
    match dist_url with
    | Some dist_url => args ++ ["--dist-url"; dist_url]
    | None => args
    end in
  let args :=
    match dist_backend with
    | Some dist_backend => args ++ ["--dist-backend"; dist_backend]
    | None => args
    end in
  let args := if eval_only then args ++ ["--eval-only"] else args in
  let args := if resume then args ++ ["--resume"] else args in
  args.

(** *** Reading an argument list (not in the source: used in statements) *)

(** What an optional argument adds to the list: its flag and its value. *)
Definition option_args (flag : string) (v : option string) : list string :=
  match v with
  | Some s => [flag; s]
  | None => []
  end.

(** What a switch adds to the list. *)
Definition switch_args (flag : string) (b : bool) : list string :=
  if b then [flag] else [].

(** The list is empty or starts with one of [flags]. *)
Definition leads_with (flags : list string) (l : list string) : Prop :=
  match l with
  | [] => True
  | t :: _ => t ∈ flags
  end.

(** [flag] directly followed by [v], somewhere in the list. *)
Definition has_pair (flag v : string) (l : list string) : Prop :=
  ∃ l1 l2, l = l1 ++ flag :: v :: l2.

(** One for an argument that is given, none for [None]. *)
Definition given {A : Type} (o : option A) : nat :=
  match o with
  | Some _ => 1
  | None => 0
  end.

(** ** More kinds of calls *)

Definition is_has_checkpoint (c : call) : bool :=
  match c with has_checkpoint _ => true | _ => false end.

Definition is_cfg_get (c : call) : bool :=
  match c with cfg_get _ _ => true | _ => false end.

Definition is_print_metrics_table (c : call) : bool :=
  match c with print_metrics_table _ => true | _ => false end.

(** The calls written in the training branch of [main] only. *)
Definition is_train_branch (c : call) : bool :=
  match c with
  | create_ddp_model _ _ _ _ _ | get_local_rank | do_train _ _ _ _
  | dump_config _ _ _ => true
  | _ => false
  end.

(** The calls written in the evaluation-only branch of [main] only. *)
Definition is_eval_branch (c : call) : bool :=
  match c with
  | build_checkpointer _ _ _ _ | has_checkpoint _ | resume_or_load _ _ _
  | load _ _ | model_eval _ => true
  | _ => false
  end.

(** The write of one item of a dict of trained configs. *)
Definition dump_call (output_dir : value) (item : string * ref) : call :=
  dump_config output_dir item.1 item.2.

(** ** A world without a config file *)

Module SampleCli.

(** The config file cannot be read. *)
Definition no_config : exn := PyExn "FileNotFoundError" "config.yaml".

(** The sample world, except that [prepare_for_launch] raises. *)
Definition answer_without_config (c : call) (w : Sample.world)
  : (exn + ret_type c) * Sample.world :=
  match c return (exn + ret_type c) * Sample.world with
  | prepare_for_launch _ => (inl no_config, w)
  | c => Sample.answer c w
  end.

End SampleCli.

(** * Verification *)

(** ** How programs run *)

Section Running.

Context {W : Type} (h : handler W).

Lemma after_nil {A : Type} (o : outcome W A) : after [] o = o.
Proof. by destruct o. Qed.

Lemma after_after {A : Type} (pre1 pre2 : list event) (o : outcome W A) :
  after pre1 (after pre2 o) = after (pre1 ++ pre2) o.
Proof. unfold after; cbn. by rewrite app_assoc. Qed.

Lemma run_bind {A B : Type} (p : prog A) (f : A → prog B) (w : W) :
  run h (p ≫= f) w =
    match out_result (run h p w) with
    | inl e => Out (out_trace (run h p w)) (inl e) (out_world (run h p w))
    | inr a => after (out_trace (run h p w)) (run h (f a) (out_world (run h p w)))
    end.
Proof.
  revert w. induction p as [a|e|c k IH]; intros w; cbn.
  - by rewrite after_nil.
  - done.
  - specialize (IH (h c w).1 (h c w).2). unfold mbind, prog_bind in IH.
    rewrite IH. by destruct (out_result _).
Qed.

Lemma run_bind_assoc {A B C : Type} (p : prog A) (f : A → prog B)
    (g : B → prog C) (w : W) :
  run h ((p ≫= f) ≫= g) w = run h (p ≫= (λ a, f a ≫= g)) w.
Proof.
  revert w. induction p as [a|e|c k IH]; intros w; cbn; [done..|].
  specialize (IH (h c w).1 (h c w).2). unfold mbind, prog_bind in IH.
  by rewrite IH.
Qed.

Lemma after_perform_bind {A : Type} (pre : list event) (c : call)
    (f : ret_type c → prog A) (w : W) :
  after pre (run h (perform c ≫= f) w) =
    match h c w with
    | (inl e, w') => Out (pre ++ [Ev c (inl e)]) (inl e) w'
    | (inr x, w') => after (pre ++ [Ev c (inr x)]) (run h (f x) w')
    end.
Proof.
  unfold after; cbn. destruct (h c w) as [[e|x] w']; cbn; [done|].
  by rewrite <- app_assoc.
Qed.

Lemma after_ret {A : Type} (pre : list event) (a : A) (w : W) :
  after pre (run h (mret a) w) = Out pre (inr a) w.
Proof. unfold after; cbn. by rewrite app_nil_r. Qed.

Lemma after_raise {A : Type} (pre : list event) (e : exn) (w : W) :
  after pre (run h (Raise e : prog A) w) = Out pre (inl e) w.
Proof. unfold after; cbn. by rewrite app_nil_r. Qed.

Lemma after_ret_bind {A B : Type} (pre : list event) (a : A)
    (f : A → prog B) (w : W) :
  after pre (run h (mret a ≫= f) w) = after pre (run h (f a) w).
Proof. done. Qed.

Lemma after_raise_bind {A B : Type} (pre : list event) (e : exn)
    (f : A → prog B) (w : W) :
  after pre (run h (Raise e ≫= f) w) = Out pre (inl e) w.
Proof. unfold after; cbn. by rewrite app_nil_r. Qed.

Lemma after_bind {A B : Type} (pre : list event) (p : prog A)
    (f : A → prog B) (w : W) :
  after pre (run h (p ≫= f) w) =
    match out_result (run h p w) with
    | inl e => Out (pre ++ out_trace (run h p w)) (inl e) (out_world (run h p w))
    | inr a => after (pre ++ out_trace (run h p w))
                 (run h (f a) (out_world (run h p w)))
    end.
Proof.
  rewrite run_bind. destruct (out_result (run h p w)); [done|].
  by rewrite after_after.
Qed.

Lemma run_try_except {A : Type} (p : prog A) (hd : exn → prog A) (w : W) :
  run h (try_except p hd) w =
    match out_result (run h p w) with
    | inl e => after (out_trace (run h p w)) (run h (hd e) (out_world (run h p w)))
    | inr _ => run h p w
    end.
Proof.
  revert w. induction p as [a|e|c k IH]; intros w; cbn.
  - done.
  - by rewrite after_nil.
  - rewrite IH.
    destruct (out_result (run h (k (h c w).1) (h c w).2)) eqn:Hk;
      [reflexivity | cbn; by rewrite Hk].
Qed.

End Running.

(** ** Reading a log, one entry at a time *)

Lemma calls_where_nil (f : call → bool) : calls_where f [] = [].
Proof. reflexivity. Qed.

Lemma calls_where_cons (f : call → bool) (ev : event) (tr : list event) :
  calls_where f (ev :: tr) =
    if f (ev_call ev) then ev_call ev :: calls_where f tr else calls_where f tr.
Proof. reflexivity. Qed.

Lemma returned_cons (ev : event) (tr : list event) (c : call) (x : ret_type c) :
  returned tr c x → returned (ev :: tr) c x.
Proof. unfold returned. cbn. tauto. Qed.

(** ** Dumping the trained configs *)

Section Dump.

Context {W : Type} (h : handler W).

(** The dump only ever writes configs: no other call is in its log. *)
Lemma dump_each_calls (f : call → bool) (output_dir : value)
    (items : list (string * ref)) (w : W) :
  (∀ o n c, f (dump_config o n c) = false) →
  calls_where f (out_trace (run h (dump_each output_dir items) w)) = [].
Proof.
  intros Hf. revert w.
  induction items as [|[name trained_cfg] rest IH]; intros w; [done|].
  cbn [dump_each]. rewrite <- (after_nil (run h _ w)).
  rewrite after_perform_bind.
  destruct (h (dump_config output_dir name trained_cfg) w) as [[e|x] w'];
    [|rewrite after_bind; destruct (out_result (run h (dump_each _ _) w'));
      rewrite ?after_ret];
    cbn [out_trace app]; rewrite calls_where_cons; cbn [ev_call];
    rewrite Hf; [done|apply IH..].
Qed.

(** A dump that raises does so because one of its writes raised. *)
Lemma dump_each_raises (output_dir : value) (items : list (string * ref))
    (w : W) (e : exn) :
  out_result (run h (dump_each output_dir items) w) = inl e →
  forallb came_back (out_trace (run h (dump_each output_dir items) w)) = false.
Proof.
  revert w. induction items as [|[name trained_cfg] rest IH]; intros w; [done|].
  cbn [dump_each]. rewrite <- (after_nil (run h _ w)).
  rewrite after_perform_bind.
  destruct (h (dump_config output_dir name trained_cfg) w) as [[e'|x] w'];
    [done|].
  rewrite after_bind.
  destruct (out_result (run h (dump_each output_dir rest) w'))
    as [e'|m'] eqn:Hrest; [|by cbn].
  cbn [out_trace out_result app]. intros [= ->].
  cbn [forallb came_back ev_out andb]. by apply IH.
Qed.

(** A dump that went through wrote each item once. *)
Lemma dump_each_count (output_dir : value) (items : list (string * ref))
    (w : W) (m : gmap string string) :
  out_result (run h (dump_each output_dir items) w) = inr m →
  count_calls is_dump_config (out_trace (run h (dump_each output_dir items) w))
    = length items.
Proof.
  revert w m. induction items as [|[name trained_cfg] rest IH]; intros w m; [done|].
  cbn [dump_each]. rewrite <- (after_nil (run h _ w)).
  rewrite after_perform_bind.
  destruct (h (dump_config output_dir name trained_cfg) w) as [[e|x] w'];
    [done|].
  rewrite after_bind.
  destruct (out_result (run h (dump_each output_dir rest) w'))
    as [e|m'] eqn:Hrest; [done|].
  rewrite after_ret. cbn [out_trace out_result app]. intros _.
  unfold count_calls in *. rewrite calls_where_cons.
  cbn [ev_call is_dump_config length]. by rewrite (IH w' m').
Qed.

Lemma dump_count (output_dir : value) (trained_cfgs : gmap string ref)
    (w : W) (m : gmap string string) :
  out_result (run h (dump_trained_model_configs output_dir trained_cfgs) w) = inr m →
  count_calls is_dump_config
    (out_trace (run h (dump_trained_model_configs output_dir trained_cfgs) w))
    = size trained_cfgs.
Proof.
  unfold dump_trained_model_configs. intros Hm.
  rewrite (dump_each_count _ _ _ _ Hm). by rewrite length_map_to_list.
Qed.

Lemma dump_calls (f : call → bool) (output_dir : value)
    (trained_cfgs : gmap string ref) (w : W) :
  (∀ o n c, f (dump_config o n c) = false) →
  calls_where f
    (out_trace (run h (dump_trained_model_configs output_dir trained_cfgs) w)) = [].
Proof. apply dump_each_calls. Qed.

(** What a dump that went through hands back: one entry per item, under
    the item's name, holding a path that writing that item returned; and
    every item was written. *)
Lemma dump_each_returns (output_dir : value) (items : list (string * ref))
    (w : W) (m : gmap string string) :
  let o := run h (dump_each output_dir items) w in
  out_result o = inr m →
  dom m = list_to_set items.*1 ∧
  (∀ name config_file, m !! name = Some config_file →
     ∃ trained_cfg, (name, trained_cfg) ∈ items ∧
       returned (out_trace o) (dump_config output_dir name trained_cfg) config_file) ∧
  (∀ name trained_cfg, (name, trained_cfg) ∈ items →
     ∃ config_file,
       returned (out_trace o) (dump_config output_dir name trained_cfg) config_file).
Proof.
  cbv zeta. revert w m.
  induction items as [|[name trained_cfg] rest IH]; intros w m.
  { cbn. intros [= <-]. split; [by rewrite dom_empty_L|].
    split; [intros ?? Hm; by rewrite lookup_empty in Hm|].
    intros ?? Hin. by apply elem_of_nil in Hin. }
  cbn [dump_each]. rewrite <- (after_nil (run h _ w)).
  rewrite after_perform_bind.
  destruct (h (dump_config output_dir name trained_cfg) w) as [[e|x] w'];
    [done|].
  rewrite after_bind.
  destruct (out_result (run h (dump_each output_dir rest) w'))
    as [e|m'] eqn:Hrest; [done|].
  rewrite after_ret. cbn [out_trace out_result app].
  intros [= <-]. destruct (IH w' m' Hrest) as (Hdom & Hentry & Hall).
  split; [|split].
  - rewrite dom_insert_L, Hdom. done.
  - intros n p Hn. destruct (decide (name = n)) as [<-|Hne].
    + rewrite lookup_insert_eq in Hn. injection Hn as <-.
      exists trained_cfg. split; [left|]. by left.
    + rewrite lookup_insert_ne in Hn by done.
      destruct (Hentry n p Hn) as (c & Hin & Hret).
      exists c. split; [by right|]. by apply returned_cons.
  - intros n c Hin. apply elem_of_cons in Hin as [[= -> ->]|Hin].
    + exists x. by left.
    + destruct (Hall n c Hin) as (p & Hret).
      exists p. by apply returned_cons.
Qed.

Lemma dump_returns (output_dir : value) (trained_cfgs : gmap string ref)
    (w : W) (m : gmap string string) :
  let o := run h (dump_trained_model_configs output_dir trained_cfgs) w in
  out_result o = inr m →
  dom m = dom trained_cfgs ∧
  (∀ name config_file, m !! name = Some config_file →
     ∃ trained_cfg, trained_cfgs !! name = Some trained_cfg ∧
       returned (out_trace o) (dump_config output_dir name trained_cfg) config_file) ∧
  (∀ name trained_cfg, trained_cfgs !! name = Some trained_cfg →
     ∃ config_file,
       returned (out_trace o) (dump_config output_dir name trained_cfg) config_file).
Proof.
  cbv zeta. unfold dump_trained_model_configs. intros Hm.
  destruct (dump_each_returns _ _ _ _ Hm) as (Hdom & Hentry & Hall).
  split; [|split].
  - rewrite Hdom. apply set_eq. intros n.
    rewrite elem_of_list_to_set, list_elem_of_fmap, elem_of_dom.
    split.
    + intros ([n' c] & -> & Hin). apply elem_of_map_to_list in Hin. by eexists.
    + intros [c Hc]. exists (n, c). split; [done|]. by apply elem_of_map_to_list.
  - intros n p Hn. destruct (Hentry n p Hn) as (c & Hin & Hret).
    exists c. split; [by apply elem_of_map_to_list|done].
  - intros n c Hc. apply Hall. by apply elem_of_map_to_list.
Qed.

End Dump.

(** ** Walking through the driver *)

(** One call of the driver: case on what the world answers. *)
Ltac answer h :=
  match goal with
  | |- context [h ?c ?w] =>
      let e := fresh "e" in
      let x := fresh "x" in
      let w' := fresh "w" in
      destruct (h c w) as [[e|x] w']; cbn [ret_type] in *
  end.

Ltac step h :=
  cbn [ret_type];
  first
    [ match goal with
      | |- context [after ?pre (run h (mbind ?f (perform ?c)) ?w)] =>
          let E := fresh "E" in
          pose proof (after_perform_bind h pre c f w) as E;
          cbn [ret_type] in E; rewrite E; clear E
      end; answer h
    | rewrite after_ret_bind
    | rewrite after_raise_bind
    | rewrite after_ret
    | rewrite after_raise ];
  cbv beta; cbn [app].

(** All the ways through a program whose calls and branches are spelled
    out: one goal for each. *)
Ltac walk h :=
  rewrite <- (after_nil (run h _ _));
  repeat first
    [ rewrite run_bind_assoc
    | step h
    | match goal with
      | |- context [run h (mbind _ (if ?b then _ else _)) _] => destruct b
      | |- context [run h (mbind _ (runner_attr (Some _) _)) _] =>
          cbn [runner_attr]
      | |- context [run h (mbind _ (runner_attr ?r _)) _] =>
          is_var r;
          let rn := fresh "rn" in destruct r as [rn|]; cbn [runner_attr]
      | |- context [after ?pre
                      (run h (mbind ?f (dump_trained_model_configs ?o ?t)) ?w)] =>
          let Hdump := fresh "Hdump" in
          rewrite (after_bind h pre (dump_trained_model_configs o t) f w);
          destruct (out_result (run h (dump_trained_model_configs o t) w))
            eqn:Hdump
      end ];
  cbn [out_trace out_result out_world app].

(** A log entry known to be among explicitly listed ones: which one. *)
Ltac which_entry H :=
  unfold returned in H; cbn [In] in H;
  repeat match type of H with
         | _ ∨ _ => destruct H as [H|H]
         | False => destruct H
         end;
  let Hc := fresh "Hc" in
  let Hb := fresh "Hb" in
  pose proof (f_equal ev_call H) as Hc;
  pose proof (f_equal has_checkpoint_reply H) as Hb;
  cbn [ev_call has_checkpoint_reply] in Hc, Hb;
  clear H; simplify_eq.

(** The calls of one kind in a log whose entries are listed, up to a
    dump at its end. *)
Ltac read_log :=
  unfold count_calls;
  repeat (rewrite calls_where_cons;
          cbn [ev_call is_do_train is_do_test is_phase is_resume_or_load
               is_load is_loading is_create_ddp_model is_dump_config orb]);
  rewrite ?dump_calls by done;
  rewrite ?calls_where_nil.

(** A log entry to be found among explicitly listed ones. *)
Ltac in_log :=
  unfold returned; cbn [In];
  repeat first [ left; reflexivity | right ].

(** ** The evaluation-only path *)

Section EvalOnly.

Context {W : Type} (h : handler W).

(** C1. For every configuration and every behaviour of the
    collaborators, [main] with [eval_only=True] never calls the runner's
    [do_train], whether it returns or raises, and when it returns it has
    called the runner's [do_test] exactly once. *)
Theorem main_eval_only_tests_once_never_trains
    (w : W) (cfg : ref) (output_dir : string) (runner : option ref)
    (resume : bool) :
  let o := run h (main cfg output_dir runner true resume) w in
  count_calls is_do_train (out_trace o) = 0 ∧
  (∀ r, out_result o = inr r → count_calls is_do_test (out_trace o) = 1).
Proof.
  cbv zeta. unfold main. walk h.
  all: split; [reflexivity | intros r Hr; first [discriminate Hr | reflexivity]].
Qed.

(** C9. When [main] returns in evaluation-only mode, the
    ['model_configs'] entry of what it returns is the empty dict,
    whatever the checkpointer, the [resume] flag and [do_test] did. *)
Theorem main_eval_only_model_configs_empty
    (w : W) (cfg : ref) (output_dir : string) (runner : option ref)
    (resume : bool) (r : RunResult) :
  out_result (run h (main cfg output_dir runner true resume) w) = inr r →
  model_configs r = ∅.
Proof.
  unfold main. walk h.
  all: intros Hr; first [discriminate Hr | by injection Hr as <-].
Qed.

(** C3. In evaluation-only mode [main] loads a checkpoint exactly once
    before it returns, and never twice.  Whenever it loads one: with
    [resume] true it has asked [has_checkpoint()], once, of the
    checkpointer the runner built, and the load is
    [resume_or_load(cfg.MODEL.WEIGHTS, resume=resume)] if the answer was
    true and the plain [load(cfg.MODEL.WEIGHTS)] if it was false; with
    [resume] false it has not asked and the load is the plain one.  So
    the call is [resume_or_load] if and only if [resume] is true and
    [has_checkpoint()] answered true, and the plain [load] in every other
    case. *)
Theorem main_eval_only_load_choice
    (w : W) (cfg : ref) (output_dir : string) (runner : option ref)
    (resume : bool) :
  let o := run h (main cfg output_dir runner true resume) w in
  let tr := out_trace o in
  (∀ r, out_result o = inr r → count_calls is_loading tr = 1) ∧
  (count_calls is_loading tr = 1 →
   ∃ rn model checkpointer weights,
     runner = Some rn ∧
     returned tr (build_model rn cfg) model ∧
     returned tr (build_checkpointer rn cfg model output_dir) checkpointer ∧
     returned tr (cfg_get cfg ["MODEL"; "WEIGHTS"]) weights ∧
     (resume = true →
      ∃ found,
        calls_where is_has_checkpoint tr = [has_checkpoint checkpointer] ∧
        returned tr (has_checkpoint checkpointer) found ∧
        calls_where is_loading tr =
          [if found then resume_or_load checkpointer weights resume
           else load checkpointer weights]) ∧
     (resume = false →
      calls_where is_has_checkpoint tr = [] ∧
      calls_where is_loading tr = [load checkpointer weights]) ∧
     (resume = true ∧ returned tr (has_checkpoint checkpointer) true →
      calls_where is_loading tr = [resume_or_load checkpointer weights resume]) ∧
     (¬ (resume = true ∧ returned tr (has_checkpoint checkpointer) true) →
      calls_where is_loading tr = [load checkpointer weights])).
Proof.
  cbv zeta. unfold main. walk h.
  all: split; [intros r Hr; first [discriminate Hr | reflexivity] | ].
  all: intros Hn; first [discriminate Hn | clear Hn].
  all: do 4 eexists; split; [reflexivity|].
  all: split; [in_log|]; split; [in_log|]; split; [in_log|].
  all: split;
    [ intros Hres;
      first [ discriminate Hres
            | eexists; split; [reflexivity|]; split; [in_log | reflexivity] ]
    | ].
  all: split; [intros Hres; first [discriminate Hres | by split] | ].
  all: split; [intros [Hres Hck] | intros Hnot].
  all: first [ reflexivity
             | discriminate Hres
             | which_entry Hck
             | exfalso; apply Hnot; split; [reflexivity | in_log] ].
Qed.

(** C5. In evaluation-only mode with [resume=True], when
    [has_checkpoint()] answers false, [main] never calls
    [resume_or_load]; when it returns, its one loading call was the
    plain [load(cfg.MODEL.WEIGHTS)] and [do_test] received
    [train_iter = checkpoint.get("iteration", None)], which is [None] if
    the loaded record has no iteration entry. *)
Theorem main_eval_only_resume_without_checkpoint
    (w : W) (cfg : ref) (output_dir : string) (runner : option ref)
    (checkpointer : ref) :
  let o := run h (main cfg output_dir runner true true) w in
  let tr := out_trace o in
  returned tr (has_checkpoint checkpointer) false →
  count_calls is_resume_or_load tr = 0 ∧
  (∀ r, out_result o = inr r →
   ∃ rn model weights record,
     returned tr (cfg_get cfg ["MODEL"; "WEIGHTS"]) weights ∧
     calls_where is_loading tr = [load checkpointer weights] ∧
     returned tr (load checkpointer weights) record ∧
     calls_where is_do_test tr =
       [do_test rn cfg model (Some (dict_get record "iteration" VNone))] ∧
     (record !! "iteration" = None →
      calls_where is_do_test tr = [do_test rn cfg model (Some VNone)])).
Proof.
  cbv zeta. unfold main. walk h.
  all: intros Hck; which_entry Hck.
  all: split; [reflexivity | intros r Hr; first [discriminate Hr | clear Hr]].
  do 4 eexists. split; [in_log|]. split; [reflexivity|].
  split; [in_log|]. split; [reflexivity|].
  intros Hnone. unfold dict_get. by rewrite Hnone.
Qed.

End EvalOnly.

(** ** The training path *)

Section Train.

Context {W : Type} (h : handler W).

(** C2. When [main] returns with [eval_only=False], the runner's phases
    in its log are exactly [do_train(cfg, model, resume=resume)] followed
    by [do_test(cfg, model)], both on the model that [create_ddp_model]
    handed back, and the ['metrics'] entry of what [main] returns is what
    that [do_test] call returned. *)
Theorem main_train_then_test
    (w : W) (cfg : ref) (output_dir : string) (runner : option ref)
    (resume : bool) (r : RunResult) :
  let o := run h (main cfg output_dir runner false resume) w in
  let tr := out_trace o in
  out_result o = inr r →
  ∃ rn model fp16_compression device_ids find_unused_parameters wrapped,
    runner = Some rn ∧
    returned tr (create_ddp_model model fp16_compression device_ids false
                   find_unused_parameters) wrapped ∧
    calls_where is_phase tr =
      [do_train rn cfg wrapped resume; do_test rn cfg wrapped None] ∧
    returned tr (do_test rn cfg wrapped None) (metrics r).
Proof.
  cbv zeta. unfold main. walk h.
  all: intros Hr; first [discriminate Hr | injection Hr as <-].
  all: do 6 eexists; split; [reflexivity|].
  all: split; [in_log|]; split; [by read_log | in_log].
Qed.


(** C6. When [main] returns with [eval_only=False], the
    ['model_configs'] entry of what it returns is the dump of what
    [do_train] returned, made under the [cfg.OUTPUT_DIR] read after the
    test: it has exactly the names of the trained sub-models, each name
    holds a path that dumping that sub-model's config returned, every
    trained sub-model's config was dumped, there were as many dumps as
    trained sub-models, and so the entry is not empty when [do_train]
    reported a trained sub-model. *)
Theorem main_train_model_configs
    (w : W) (cfg : ref) (output_dir : string) (runner : option ref)
    (resume : bool) (r : RunResult) :
  let o := run h (main cfg output_dir runner false resume) w in
  let tr := out_trace o in
  out_result o = inr r →
  ∃ rn wrapped trained_cfgs cfg_output_dir,
    returned tr (do_train rn cfg wrapped resume) trained_cfgs ∧
    returned tr (cfg_get cfg ["OUTPUT_DIR"]) cfg_output_dir ∧
    dom (model_configs r) = dom trained_cfgs ∧
    (∀ name config_file,
       model_configs r !! name = Some config_file →
       ∃ trained_cfg,
         trained_cfgs !! name = Some trained_cfg ∧
         returned tr (dump_config cfg_output_dir name trained_cfg) config_file) ∧
    (∀ name trained_cfg,
       trained_cfgs !! name = Some trained_cfg →
       ∃ config_file,
         returned tr (dump_config cfg_output_dir name trained_cfg) config_file) ∧
    count_calls is_dump_config tr = size trained_cfgs ∧
    (trained_cfgs ≠ ∅ → model_configs r ≠ ∅).
Proof.
  cbv zeta. unfold main. walk h.
  all: intros Hr; first [discriminate Hr | injection Hr as <-].
  all: destruct (dump_returns h _ _ _ _ Hdump) as (Hdom & Hentry & Hall).
  all: pose proof (dump_count h _ _ _ _ Hdump) as Hcount.
  all: do 4 eexists; split; [in_log|]; split; [in_log|].
  all: cbn [model_configs]; split; [exact Hdom|].
  all: split; [|split; [|split; [by read_log|]]].
  all: try (intros name p Hn; destruct (Hentry name p Hn) as (c & Hc & Hret);
            exists c; split; [exact Hc|]; by repeat apply returned_cons).
  all: try (intros name c Hc; destruct (Hall name c Hc) as (p & Hret);
            exists p; by repeat apply returned_cons).
  all: intros Hne ->; rewrite dom_empty_L in Hdom;
    symmetry in Hdom; by apply dom_empty_inv_L in Hdom.
Qed.

End Train.

(** ** Both paths *)

Section Result.

Context {W : Type} (h : handler W).

(** C10. Whenever [main] returns, in either mode, the ['accuracy'] and
    the ['metrics'] entries of what it returns are one and the same
    object: the one returned by the only [do_test] call of the run. *)
Theorem main_accuracy_is_metrics
    (w : W) (cfg : ref) (output_dir : string) (runner : option ref)
    (eval_only resume : bool) (r : RunResult) :
  let o := run h (main cfg output_dir runner eval_only resume) w in
  let tr := out_trace o in
  out_result o = inr r →
  accuracy r = metrics r ∧
  ∃ rn model train_iter,
    calls_where is_do_test tr = [do_test rn cfg model train_iter] ∧
    returned tr (do_test rn cfg model train_iter) (metrics r).
Proof.
  cbv zeta. unfold main. destruct eval_only; walk h.
  all: intros Hr; first [discriminate Hr | injection Hr as <-].
  all: split; [reflexivity|].
  all: do 3 eexists; split; [by read_log | in_log].
Qed.


(** Unless one of its calls raises, [main] returns, on either path, once
    it is given a runner. *)
Lemma main_returns_unless_a_call_raises
    (w : W) (cfg : ref) (output_dir : string) (rn : ref)
    (eval_only resume : bool) :
  let o := run h (main cfg output_dir (Some rn) eval_only resume) w in
  no_call_raised (out_trace o) → ∃ r, out_result o = inr r.
Proof.
  cbv zeta. unfold main, no_call_raised. destruct eval_only; walk h.
  all: cbn [forallb came_back ev_out andb]; intros Hok.
  all: first [discriminate Hok | by eexists | idtac].
  all: apply dump_each_raises in Hdump; unfold dump_trained_model_configs in Hok;
    congruence.
Qed.

End Result.

(** ** The failure interceptor *)

Section PostMortem.

Context {W : Type} (h : handler W).

(** C8. Around any entry point, [main] included:
    when the entry point raises, the wrapped entry point makes the same
    calls, then enters post-mortem inspection of that exception, and
    raises that same exception; when the entry point returns, the
    wrapped one is the same run (same calls, same result, same world)
    with no inspection. *)
Theorem post_mortem_reraises_and_spares_success
    (main_func : entry_point) (args : main_args) (w : W) :
  let o := run h (main_func args) w in
  let o' := run h (post_mortem_if_fail_for_main main_func args) w in
  (∀ e, out_result o = inl e →
     out_result o' = inl e ∧
     ∃ reply, out_trace o' = out_trace o ++ [Ev (post_mortem e) reply]) ∧
  (∀ r, out_result o = inr r → o' = o).
Proof.
  cbv zeta. unfold post_mortem_if_fail_for_main. rewrite run_try_except.
  split.
  - intros e He. rewrite He. cbn. split; [done|]. by eexists.
  - intros r Hr. by rewrite Hr.
Qed.

End PostMortem.

(** ** The command-line surface *)

Section CommandLine.

Context {W : Type} (h : handler W).

Variable launch :
  entry_point → Z → Z → Z → string → string → main_args → prog RunResult.

(** C4, amended.  [run_with_cmdline_args] runs [launch] on the
    post-mortem-wrapped [main] with the topology of the namespace and
    the arguments [(cfg, output_dir, runner, eval_only, resume)]; it
    makes no call of its own after that, raises what [launch] raises,
    and when [launch] returns it drops the result and hands back
    [None]. *)
Theorem run_with_cmdline_args_returns_none (args : Namespace) (w : W) :
  let o := run h (run_with_cmdline_args launch args) w in
  (∀ v, out_result o = inr v → v = None) ∧
  (∀ cfg output_dir runner w',
     h (prepare_for_launch args) w = (inr (cfg, output_dir, runner), w') →
     let l :=
       run h (launch (post_mortem_if_fail_for_main main_entry)
                (num_processes args) (num_machines args) (machine_rank args)
                (dist_url args) (dist_backend args)
                (cfg, output_dir, Some runner, ns_eval_only args, ns_resume args))
         w' in
     out_trace o =
       Ev (prepare_for_launch args) (inr (cfg, output_dir, runner)) :: out_trace l ∧
     out_world o = out_world l ∧
     out_result o =
       match out_result l with inl e => inl e | inr _ => inr None end).
Proof.
  cbv zeta. unfold run_with_cmdline_args.
  rewrite <- (after_nil (run h _ w)).
  rewrite (after_perform_bind h [] (prepare_for_launch args)).
  destruct (h (prepare_for_launch args) w) as [[e|[[cfg output_dir] runner]] w1].
  { split; [done|]. intros ???? [=]. }
  rewrite after_bind.
  destruct (out_result (run h (launch _ _ _ _ _ _ _) w1)) as [e|leader] eqn:Hl.
  - split; [done|]. intros ???? [= <- <- <- <-]. by rewrite Hl.
  - rewrite after_ret. split; [by intros v [= <-]|].
    intros ???? [= <- <- <- <-]. by rewrite Hl.
Qed.

End CommandLine.

(** ** Runs in the sample world *)

(** Each statement above that starts from an assumption is used once on a
    run of the sample world where the assumption holds. *)

Section SampleRuns.

Import Sample.

Lemma main_eval_only_tests_once_never_trains_witness :
  out_result (eval_run true resumable) = inr eval_result ∧
  count_calls is_do_train (out_trace (eval_run true resumable)) = 0 ∧
  count_calls is_do_test (out_trace (eval_run true resumable)) = 1.
Proof.
  assert (Hrun : out_result (eval_run true resumable) = inr eval_result)
    by (vm_compute; reflexivity).
  split; [exact Hrun|].
  destruct (main_eval_only_tests_once_never_trains answer resumable cfg
              "/out" (Some runner) true) as [Hnever Honce].
  split; [exact Hnever | exact (Honce eval_result Hrun)].
Defined.

Lemma main_eval_only_model_configs_empty_witness :
  out_result (eval_run false resumable) = inr eval_result ∧
  model_configs eval_result = ∅.
Proof.
  assert (Hrun : out_result (eval_run false resumable) = inr eval_result)
    by (vm_compute; reflexivity).
  split; [exact Hrun|].
  exact (main_eval_only_model_configs_empty answer resumable cfg "/out"
           (Some runner) false eval_result Hrun).
Defined.

Lemma main_eval_only_load_choice_witness :
  count_calls is_loading (out_trace (eval_run true resumable)) = 1 ∧
  calls_where is_loading (out_trace (eval_run true resumable)) =
    [resume_or_load 20%positive (VStr "model_final.pth") true] ∧
  count_calls is_loading (out_trace (eval_run true fresh)) = 1 ∧
  calls_where is_loading (out_trace (eval_run true fresh)) =
    [load 20%positive (VStr "model_final.pth")].
Proof.
  assert (Hone : count_calls is_loading (out_trace (eval_run true resumable)) = 1)
    by (vm_compute; reflexivity).
  assert (Hone' : count_calls is_loading (out_trace (eval_run true fresh)) = 1)
    by (vm_compute; reflexivity).
  split; [exact Hone|]. split; [|split; [exact Hone'|]].
  - destruct (main_eval_only_load_choice answer resumable cfg "/out"
                (Some runner) true) as [_ Hchoice].
    destruct (Hchoice Hone)
      as (rn & model & ck & weights & _ & _ & _ & _ & Hresume & _).
    destruct (Hresume eq_refl) as (found & Hasked & Hfound & Hload).
    pose proof Hasked as Hck. vm_compute in Hck. injection Hck as <-.
    unfold returned in Hfound. vm_compute in Hfound. which_entry Hfound.
    pose proof Hload as Hw. vm_compute in Hw. injection Hw as <-.
    exact Hload.
  - destruct (main_eval_only_load_choice answer fresh cfg "/out"
                (Some runner) true) as [_ Hchoice].
    destruct (Hchoice Hone')
      as (rn & model & ck & weights & _ & _ & _ & _ & Hresume & _).
    destruct (Hresume eq_refl) as (found & Hasked & Hfound & Hload).
    pose proof Hasked as Hck. vm_compute in Hck. injection Hck as <-.
    unfold returned in Hfound. vm_compute in Hfound. which_entry Hfound.
    pose proof Hload as Hw. vm_compute in Hw. injection Hw as <-.
    exact Hload.
Defined.

Lemma main_eval_only_resume_without_checkpoint_witness :
  returned (out_trace (eval_run true fresh)) (has_checkpoint 20%positive) false ∧
  out_result (eval_run true fresh) = inr eval_result ∧
  count_calls is_resume_or_load (out_trace (eval_run true fresh)) = 0 ∧
  ∃ rn model weights record,
    returned (out_trace (eval_run true fresh)) (load 20%positive weights)
      record ∧
    (record !! "iteration" = None →
     calls_where is_do_test (out_trace (eval_run true fresh)) =
       [do_test rn cfg model (Some VNone)]).
Proof.
  assert (Hck : returned (out_trace (eval_run true fresh))
                  (has_checkpoint 20%positive) false).
  { unfold returned. vm_compute. do 4 right. left. reflexivity. }
  assert (Hrun : out_result (eval_run true fresh) = inr eval_result)
    by (vm_compute; reflexivity).
  split; [exact Hck|]. split; [exact Hrun|].
  destruct (main_eval_only_resume_without_checkpoint answer fresh cfg "/out"
              (Some runner) 20%positive Hck) as [Hnever Hret].
  split; [exact Hnever|].
  destruct (Hret eval_result Hrun)
    as (rn & model & weights & record & _ & _ & Hload & _ & Hnone).
  exists rn, model, weights, record. split; [exact Hload | exact Hnone].
Defined.

Lemma main_train_then_test_witness :
  out_result (train_run fresh) = inr train_result ∧
  ∃ wrapped,
    calls_where is_phase (out_trace (train_run fresh)) =
      [do_train runner cfg wrapped false; do_test runner cfg wrapped None].
Proof.
  assert (Hrun : out_result (train_run fresh) = inr train_result)
    by (vm_compute; reflexivity).
  split; [exact Hrun|].
  destruct (main_train_then_test answer fresh cfg "/out" (Some runner) false
              train_result Hrun)
    as (rn & model & fp & dids & fu & wrapped & Hrn & _ & Hphase & _).
  injection Hrn as <-. exists wrapped. exact Hphase.
Defined.


Lemma main_train_model_configs_witness :
  out_result (train_run fresh) = inr train_result ∧
  ∃ rn wrapped trained_cfgs,
    returned (out_trace (train_run fresh)) (do_train rn cfg wrapped false)
      trained_cfgs ∧
    dom (model_configs train_result) = dom trained_cfgs ∧
    (trained_cfgs ≠ ∅ → model_configs train_result ≠ ∅).
Proof.
  assert (Hrun : out_result (train_run fresh) = inr train_result)
    by (vm_compute; reflexivity).
  split; [exact Hrun|].
  destruct (main_train_model_configs answer fresh cfg "/out" (Some runner)
              false train_result Hrun)
    as (rn & wrapped & trained & od & Htrain & _ & Hdom & _ & _ & _ & Hne).
  exists rn, wrapped, trained.
  split; [exact Htrain|]. split; [exact Hdom | exact Hne].
Defined.

Lemma main_accuracy_is_metrics_witness :
  out_result (train_run fresh) = inr train_result ∧
  accuracy train_result = metrics train_result.
Proof.
  assert (Hrun : out_result (train_run fresh) = inr train_result)
    by (vm_compute; reflexivity).
  split; [exact Hrun|].
  apply (main_accuracy_is_metrics answer fresh cfg "/out" (Some runner)
           false false train_result Hrun).
Defined.

Lemma post_mortem_reraises_and_spares_success_witness :
  out_result (run answer (main_entry entry_args) failing) = inl oom ∧
  out_result
    (run answer (post_mortem_if_fail_for_main main_entry entry_args) failing)
    = inl oom ∧
  out_result (run answer (main_entry entry_args) fresh) = inr train_result ∧
  run answer (post_mortem_if_fail_for_main main_entry entry_args) fresh
    = run answer (main_entry entry_args) fresh.
Proof.
  assert (Hfail : out_result (run answer (main_entry entry_args) failing)
                  = inl oom) by (vm_compute; reflexivity).
  assert (Hrun : out_result (run answer (main_entry entry_args) fresh)
                 = inr train_result) by (vm_compute; reflexivity).
  split; [exact Hfail|]. split.
  - apply (proj1 (post_mortem_reraises_and_spares_success answer main_entry
                    entry_args failing) oom Hfail).
  - split; [exact Hrun|].
    apply (proj2 (post_mortem_reraises_and_spares_success answer main_entry
                    entry_args fresh) train_result Hrun).
Defined.

Lemma run_with_cmdline_args_returns_none_witness :
  out_result (run answer (run_with_cmdline_args launch_workers args) fresh)
    = inr None ∧
  answer (prepare_for_launch args) fresh = (inr (cfg, "/out", runner), fresh) ∧
  out_world (run answer (run_with_cmdline_args launch_workers args) fresh) =
    out_world
      (run answer
         (launch_workers (post_mortem_if_fail_for_main main_entry) 1 1 0
            "file:///tmp/d2go_dist_file" "NCCL" entry_args) fresh).
Proof.
  assert (Hrun : out_result
                   (run answer (run_with_cmdline_args launch_workers args) fresh)
                 = inr None) by (vm_compute; reflexivity).
  assert (Hprep : answer (prepare_for_launch args) fresh
                  = (inr (cfg, "/out", runner), fresh)) by reflexivity.
  destruct (run_with_cmdline_args_returns_none answer launch_workers args fresh)
    as [Hnone Hlaunch].
  pose proof (Hnone None Hrun) as _.
  split; [exact Hrun|].
  split; [exact Hprep|].
  apply (Hlaunch cfg "/out" runner fresh Hprep).
Defined.

(** C4, as claimed, fails in the sample world: the launcher yields the
    leader's result and [run_with_cmdline_args] hands back [None]. *)
Lemma run_with_cmdline_args_drops_leader_result :
  ¬ hands_back_leader_result answer launch_workers args fresh.
Proof.
  intros Hclaim.
  assert (Hprep : answer (prepare_for_launch args) fresh
                  = (inr (cfg, "/out", runner), fresh)) by reflexivity.
  assert (Hleader :
    out_result
      (run answer
         (launch_workers (post_mortem_if_fail_for_main main_entry)
            (num_processes args) (num_machines args) (machine_rank args)
            (dist_url args) (dist_backend args)
            (cfg, "/out", Some runner, ns_eval_only args, ns_resume args))
         fresh) = inr train_result) by (vm_compute; reflexivity).
  specialize (Hclaim cfg "/out" runner fresh train_result Hprep Hleader).
  vm_compute in Hclaim. discriminate Hclaim.
Qed.

End SampleRuns.

(** * More of [train_net.py] *)

(** ** More on [main] *)

(** The calls of several kinds in a log whose entries are listed, up to a
    dump at its end. *)
Ltac tally :=
  unfold count_calls;
  repeat (rewrite calls_where_cons;
          cbn [ev_call is_do_train is_do_test is_phase is_resume_or_load
               is_load is_loading is_create_ddp_model is_dump_config
               is_has_checkpoint is_cfg_get is_print_metrics_table
               is_train_branch is_eval_branch orb]);
  rewrite ?dump_calls by done;
  rewrite ?calls_where_nil.

Section DumpLog.

Context {W : Type} (h : handler W).

(** A dump that went through made its writes in the order of the items,
    and none of them raised. *)
Lemma dump_each_log (output_dir : value) (items : list (string * ref))
    (w : W) (m : gmap string string) :
  out_result (run h (dump_each output_dir items) w) = inr m →
  calls (out_trace (run h (dump_each output_dir items) w))
    = dump_call output_dir <$> items ∧
  no_call_raised (out_trace (run h (dump_each output_dir items) w)).
Proof.
  revert w m. induction items as [|[name trained_cfg] rest IH]; intros w m; [done|].
  cbn [dump_each]. rewrite <- (after_nil (run h _ w)).
  rewrite after_perform_bind.
  destruct (h (dump_config output_dir name trained_cfg) w) as [[e|x] w'];
    [done|].
  rewrite after_bind.
  destruct (out_result (run h (dump_each output_dir rest) w'))
    as [e|m'] eqn:Hrest; [done|].
  rewrite after_ret. cbn [out_trace out_result app]. intros _.
  destruct (IH w' m' Hrest) as [Hcalls Hok].
  unfold no_call_raised, calls in *. cbn [map fmap list_fmap forallb came_back ev_out andb].
  split; [|exact Hok]. f_equal. exact Hcalls.
Qed.

(** A dump that raises stops at the write that raised, with what it
    raised; the writes before it went through. *)
Lemma dump_each_stops (output_dir : value) (items : list (string * ref))
    (w : W) (e : exn) :
  out_result (run h (dump_each output_dir items) w) = inl e →
  ∃ pre c,
    out_trace (run h (dump_each output_dir items) w) = pre ++ [Ev c (inl e)] ∧
    no_call_raised pre.
Proof.
  revert w. induction items as [|[name trained_cfg] rest IH]; intros w; [done|].
  cbn [dump_each]. rewrite <- (after_nil (run h _ w)).
  rewrite after_perform_bind.
  destruct (h (dump_config output_dir name trained_cfg) w) as [[e'|x] w'].
  { cbn. intros [= ->]. by exists [], (dump_config output_dir name trained_cfg). }
  rewrite after_bind.
  destruct (out_result (run h (dump_each output_dir rest) w'))
    as [e'|m'] eqn:Hrest; [|by cbn].
  cbn [out_trace out_result app]. intros [= ->].
  destruct (IH w' Hrest) as (pre & c & -> & Hpre).
  by exists (Ev (dump_config output_dir name trained_cfg) (inr x) :: pre), c.
Qed.

End DumpLog.

(** The last entry of a listed log set apart from the ones before it. *)
Ltac last_call tr :=
  match tr with
  | [Ev ?c _] => c
  | _ :: ?rest => last_call rest
  end.

Ltac last_entry :=
  match goal with
  | |- ∃ pre c, ?tr = _ ∧ _ =>
      let c := last_call tr in
      exists (removelast tr), c; split; reflexivity
  end.

Section MoreMain.

Context {W : Type} (h : handler W).

(** X1. With the default [runner=None], the log of [main] is the one
    call [setup_after_launch(cfg, output_dir, None)], and [main] raises in
    either mode: the very exception that call raised, or, when the call
    came back, the [AttributeError] of [None.build_model]. *)
Theorem main_without_runner
    (w : W) (cfg : ref) (output_dir : string) (eval_only resume : bool) :
  let o := run h (main cfg output_dir None eval_only resume) w in
  (∃ reply,
     out_trace o = [Ev (setup_after_launch cfg output_dir None) reply] ∧
     out_result o =
       inl match reply with
           | inl e => e
           | inr _ =>
               PyExn "AttributeError"
                 "'NoneType' object has no attribute 'build_model'"
           end) ∧
  calls (out_trace o) = [setup_after_launch cfg output_dir None] ∧
  (∃ e, out_result o = inl e) ∧
  (returned (out_trace o) (setup_after_launch cfg output_dir None) () →
   out_result o =
     inl (PyExn "AttributeError"
            "'NoneType' object has no attribute 'build_model'")).
Proof.
  cbv zeta. unfold main. rewrite <- (after_nil (run h _ w)).
  step h; [|cbn [runner_attr]; step h]; cbn [out_trace out_result].
  - split; [by eexists (inl _)|]. split; [done|]. split; [by eexists|].
    intros [Hev|[]]. apply (f_equal came_back) in Hev. discriminate Hev.
  - split; [by eexists (inr _)|]. split; [done|]. split; [by eexists|]. done.
Qed.

(** X2. [main] stops at the first call that raises and raises what that
    call raised: when [main], given a runner, raises [e], the last entry
    of its log is a call that raised [e] and every call before it came
    back; when [main] returns, every call of its log came back. *)
Theorem main_stops_at_first_failure
    (w : W) (cfg : ref) (output_dir : string) (rn : ref)
    (eval_only resume : bool) :
  let o := run h (main cfg output_dir (Some rn) eval_only resume) w in
  (∀ e, out_result o = inl e →
     ∃ pre c, out_trace o = pre ++ [Ev c (inl e)] ∧ no_call_raised pre) ∧
  (∀ r, out_result o = inr r → no_call_raised (out_trace o)).
Proof.
  cbv zeta. unfold main. destruct eval_only; walk h.
  all: split; intros ? Hr; try discriminate Hr.
  all: try (injection Hr as <-; last_entry).
  all: try reflexivity.
  - injection Hr as <-.
    destruct (dump_each_stops h _ _ _ _ Hdump) as (pre & c & Htr & Hpre).
    unfold dump_trained_model_configs. rewrite Htr.
    eexists (_ :: _ :: _ :: _ :: _ :: _ :: _ :: _ :: _ :: _ :: _ :: pre), c.
    split; [reflexivity|exact Hpre].
  - destruct (dump_each_log h _ _ _ _ Hdump) as [_ Hok]. exact Hok.
  - injection Hr as <-.
    destruct (dump_each_stops h _ _ _ _ Hdump) as (pre & c & Htr & Hpre).
    unfold dump_trained_model_configs. rewrite Htr.
    eexists (_ :: _ :: _ :: _ :: _ :: _ :: _ :: _ :: _ :: _ :: _ :: _ :: pre), c.
    split; [reflexivity|exact Hpre].
  - destruct (dump_each_log h _ _ _ _ Hdump) as [_ Hok]. exact Hok.
Qed.

(** X3. In evaluation-only mode with [resume=False], [main] never asks
    the checkpointer [has_checkpoint()] and never calls [resume_or_load]:
    the [and] of line 44 stops at [resume]. *)
Theorem main_eval_only_no_resume_never_asks
    (w : W) (cfg : ref) (output_dir : string) (runner : option ref) :
  let tr := out_trace (run h (main cfg output_dir runner true false) w) in
  count_calls is_has_checkpoint tr = 0 ∧
  count_calls is_resume_or_load tr = 0.
Proof.
  cbv zeta. unfold main. walk h. all: by split.
Qed.

(** X4. In evaluation-only mode [main] makes none of the calls of the
    training branch (no [create_ddp_model], no [get_local_rank], no
    [do_train], no config dump), and the only config entry it reads is
    [cfg.MODEL.WEIGHTS]. *)
Theorem main_eval_only_leaves_training_alone
    (w : W) (cfg : ref) (output_dir : string) (runner : option ref)
    (resume : bool) :
  let tr := out_trace (run h (main cfg output_dir runner true resume) w) in
  count_calls is_train_branch tr = 0 ∧
  Forall (λ c, c = cfg_get cfg ["MODEL"; "WEIGHTS"]) (calls_where is_cfg_get tr).
Proof.
  cbv zeta. unfold main. walk h.
  all: split; [reflexivity|]; tally; by repeat constructor.
Qed.

(** X5. With [eval_only=False], [main] makes none of the calls of the
    evaluation-only branch (it builds no checkpointer, loads no
    checkpoint, does not call [model.eval()]), and the config entries it
    reads are [MODEL.DDP_FP16_GRAD_COMPRESS], [MODEL.DEVICE],
    [MODEL.DDP_FIND_UNUSED_PARAMETERS] and [OUTPUT_DIR], each once and
    in this order when it returns; it never reads [MODEL.WEIGHTS]. *)
Theorem main_train_leaves_checkpoints_alone
    (w : W) (cfg : ref) (output_dir : string) (runner : option ref)
    (resume : bool) :
  let o := run h (main cfg output_dir runner false resume) w in
  let tr := out_trace o in
  let reads :=
    [cfg_get cfg ["MODEL"; "DDP_FP16_GRAD_COMPRESS"];
     cfg_get cfg ["MODEL"; "DEVICE"];
     cfg_get cfg ["MODEL"; "DDP_FIND_UNUSED_PARAMETERS"];
     cfg_get cfg ["OUTPUT_DIR"]] in
  count_calls is_eval_branch tr = 0 ∧
  calls_where is_cfg_get tr `prefix_of` reads ∧
  (∀ r, out_result o = inr r → calls_where is_cfg_get tr = reads).
Proof.
  cbv zeta. unfold main. walk h.
  all: split; [by tally|]; tally.
  all: split; [|intros r Hr; first [discriminate Hr | reflexivity]].
  all: repeat first [apply prefix_nil | reflexivity | apply prefix_cons].
Qed.

(** X6. The log of a returning evaluation-only run, entry by entry:
    [setup_after_launch]; [build_model]; the logging of the model it
    returned; [build_checkpointer] on that model with
    [save_dir=output_dir]; [has_checkpoint()] on the checkpointer it
    returned, if [resume]; the read of [cfg.MODEL.WEIGHTS]; the load on
    that checkpointer with the weights read ([resume_or_load] if
    [has_checkpoint()] was asked and answered true, [load] otherwise);
    [model.eval()] on the built model; [do_test] on the built model with
    [checkpoint.get("iteration", None)] of the record the load returned;
    and [print_metrics_table] on what [do_test] returned, which is the
    ['metrics'] of the result. *)
Theorem main_eval_only_call_order
    (w : W) (cfg : ref) (output_dir : string) (rn : ref) (resume : bool)
    (r : RunResult) :
  let o := run h (main cfg output_dir (Some rn) true resume) w in
  out_result o = inr r →
  ∃ model checkpointer found weights (record : gmap string value),
    (resume = false → found = false) ∧
    out_trace o =
      [Ev (setup_after_launch cfg output_dir (Some rn)) (inr ());
       Ev (build_model rn cfg) (inr model);
       Ev (logger_info_model model) (inr ());
       Ev (build_checkpointer rn cfg model output_dir) (inr checkpointer)]
      ++ (if resume then [Ev (has_checkpoint checkpointer) (inr found)] else [])
      ++ [Ev (cfg_get cfg ["MODEL"; "WEIGHTS"]) (inr weights);
          (if found
           then Ev (resume_or_load checkpointer weights resume) (inr record)
           else Ev (load checkpointer weights) (inr record));
          Ev (model_eval model) (inr ());
          Ev (do_test rn cfg model (Some (dict_get record "iteration" VNone)))
            (inr (metrics r));
          Ev (print_metrics_table (metrics r)) (inr ())].
Proof.
  cbv zeta. unfold main. walk h.
  all: intros Hr; first [discriminate Hr | injection Hr as <-].
  all: repeat match goal with x : () |- _ => destruct x end.
  all: match goal with
       | |- context [Ev (build_model _ _) (inr ?m)] => exists m
       end.
  all: match goal with
       | |- context [Ev (build_checkpointer _ _ _ _) (inr ?c)] => exists c
       end.
  all: first [ match goal with
               | |- context [Ev (has_checkpoint _) (inr ?b)] => exists b
               end
             | exists false ].
  all: match goal with
       | |- context [Ev (cfg_get _ ["MODEL"; "WEIGHTS"]) (inr ?v)] => exists v
       end.
  all: first [ match goal with
               | |- context [Ev (resume_or_load _ _ _) (inr ?d)] => exists d
               end
             | match goal with
               | |- context [Ev (load _ _) (inr ?d)] => exists d
               end ].
  all: split; [intros Hres; first [discriminate Hres | reflexivity] | ].
  all: reflexivity.
Qed.

(** X7. The log of a returning training run, entry by entry:
    [setup_after_launch]; [build_model]; the logging of the model it
    returned; the reads of [MODEL.DDP_FP16_GRAD_COMPRESS] and
    [MODEL.DEVICE]; [comm.get_local_rank()] unless the device read is
    ["cpu"]; the read of [MODEL.DDP_FIND_UNUSED_PARAMETERS];
    [create_ddp_model] on the built model with the values read,
    [device_ids] [None] on ["cpu"] and the one-element list of the local
    rank otherwise, and [broadcast_buffers=False]; [do_train] and then
    [do_test] (without [train_iter]) on the model [create_ddp_model]
    returned; [print_metrics_table] on what [do_test] returned, which is
    the ['metrics'] of the result; the read of [OUTPUT_DIR]; and then the
    config dump: one write, in some order, for each item of what
    [do_train] returned, under the [OUTPUT_DIR] read, none raising. *)
Theorem main_train_call_order
    (w : W) (cfg : ref) (output_dir : string) (rn : ref) (resume : bool)
    (r : RunResult) :
  let o := run h (main cfg output_dir (Some rn) false resume) w in
  out_result o = inr r →
  ∃ device local_rank model fp16_compression find_unused_parameters wrapped
    trained_cfgs cfg_output_dir dumps,
    out_trace o =
      [Ev (setup_after_launch cfg output_dir (Some rn)) (inr ());
       Ev (build_model rn cfg) (inr model);
       Ev (logger_info_model model) (inr ());
       Ev (cfg_get cfg ["MODEL"; "DDP_FP16_GRAD_COMPRESS"]) (inr fp16_compression);
       Ev (cfg_get cfg ["MODEL"; "DEVICE"]) (inr device)]
      ++ (if decide (device = VStr "cpu") then []
          else [Ev get_local_rank (inr local_rank)])
      ++ [Ev (cfg_get cfg ["MODEL"; "DDP_FIND_UNUSED_PARAMETERS"])
            (inr find_unused_parameters);
          Ev (create_ddp_model model fp16_compression
                (if decide (device = VStr "cpu") then None
                 else Some [local_rank])
                false find_unused_parameters)
            (inr wrapped);
          Ev (do_train rn cfg wrapped resume) (inr trained_cfgs);
          Ev (do_test rn cfg wrapped None) (inr (metrics r));
          Ev (print_metrics_table (metrics r)) (inr ());
          Ev (cfg_get cfg ["OUTPUT_DIR"]) (inr cfg_output_dir)]
      ++ dumps ∧
    calls dumps ≡ₚ dump_call cfg_output_dir <$> map_to_list trained_cfgs ∧
    no_call_raised dumps.
Proof.
  cbv zeta. unfold main. walk h.
  all: intros Hr; first [discriminate Hr | injection Hr as <-].
  all: destruct (dump_each_log h _ _ _ _ Hdump) as [Hdumps Hok].
  all: repeat match goal with x : () |- _ => destruct x end.
  all: match goal with
       | |- context [Ev (cfg_get _ ["MODEL"; "DEVICE"]) (inr ?d)] => exists d
       end.
  all: first [ match goal with
               | |- context [Ev get_local_rank (inr ?z)] => exists z
               end
             | exists 0%Z ].
  all: case_decide; try done.
  all: do 7 eexists; split; [reflexivity|].
  all: unfold dump_trained_model_configs; split; [by rewrite Hdumps | exact Hok].
Qed.

(** X8. Whenever [main] returns, in either mode, it has called
    [print_metrics_table] exactly once, on the object it returns under
    ['metrics']. *)
Theorem main_prints_metrics_once
    (w : W) (cfg : ref) (output_dir : string) (runner : option ref)
    (eval_only resume : bool) (r : RunResult) :
  let o := run h (main cfg output_dir runner eval_only resume) w in
  out_result o = inr r →
  calls_where is_print_metrics_table (out_trace o) =
    [print_metrics_table (metrics r)].
Proof.
  cbv zeta. unfold main. destruct eval_only; walk h.
  all: intros Hr; first [discriminate Hr | injection Hr as <-].
  all: by tally.
Qed.

End MoreMain.

(** ** More on [run_with_cmdline_args] *)

Section MoreCommandLine.

Context {W : Type} (h : handler W).

Variable launch :
  entry_point → Z → Z → Z → string → string → main_args → prog RunResult.

(** X9. When [prepare_for_launch] raises, [run_with_cmdline_args] raises
    the same exception and nothing is launched: that call is its whole
    log, whatever the launcher. *)
Theorem run_with_cmdline_args_prepare_fails
    (args : Namespace) (w w' : W) (e : exn) :
  h (prepare_for_launch args) w = (inl e, w') →
  run h (run_with_cmdline_args launch args) w =
    Out [Ev (prepare_for_launch args) (inl e)] (inl e) w'.
Proof.
  intros Hprep. unfold run_with_cmdline_args.
  rewrite <- (after_nil (run h _ w)).
  rewrite (after_perform_bind h [] (prepare_for_launch args)).
  by rewrite Hprep.
Qed.

End MoreCommandLine.


(** ** [build_cli_args] *)

Section BuildCliArgs.

Implicit Types (config_path output_dir : string) (runner_name : option string).
Implicit Types (num_processes num_machines machine_rank : option int_or_str).
Implicit Types (dist_url dist_backend : option string) (eval_only resume : bool).

(** The list, piece by piece. *)
Lemma build_cli_args_pieces config_path output_dir runner_name num_processes
    num_machines machine_rank dist_url dist_backend eval_only resume :
  build_cli_args config_path output_dir runner_name num_processes num_machines
    machine_rank dist_url dist_backend eval_only resume =
  ["--config-file"; config_path; "--output-dir"; output_dir]
    ++ option_args "--runner" runner_name
    ++ option_args "--num-processes" (str <$> num_processes)
    ++ option_args "--num-machines" (str <$> num_machines)
    ++ option_args "--machine-rank" (str <$> machine_rank)
    ++ option_args "--dist-url" dist_url
    ++ option_args "--dist-backend" dist_backend
    ++ switch_args "--eval-only" eval_only
    ++ switch_args "--resume" resume.
Proof.
  by destruct runner_name, num_processes, num_machines, machine_rank, dist_url,
    dist_backend, eval_only, resume.
Qed.

Lemma leads_with_switch_last (flag : string) (b : bool) :
  leads_with [flag] (switch_args flag b).
Proof. destruct b; cbn; [by left | done]. Qed.

Lemma leads_with_later (flag : string) (flags l : list string) :
  leads_with flags l → leads_with (flag :: flags) l.
Proof. destruct l; cbn; [done | by right]. Qed.

Lemma leads_with_option (flag : string) (flags : list string)
    (v : option string) (l : list string) :
  leads_with flags l → leads_with (flag :: flags) (option_args flag v ++ l).
Proof. destruct v; cbn; [by left | apply leads_with_later]. Qed.

Lemma leads_with_switch (flag : string) (flags : list string) (b : bool)
    (l : list string) :
  leads_with flags l → leads_with (flag :: flags) (switch_args flag b ++ l).
Proof. destruct b; cbn; [by left | apply leads_with_later]. Qed.

(** An optional argument can be read back off the front of a list whose
    rest cannot start with its flag. *)
Lemma option_args_inj (flag : string) (flags : list string)
    (v v' : option string) (l l' : list string) :
  leads_with flags l → leads_with flags l' → flag ∉ flags →
  option_args flag v ++ l = option_args flag v' ++ l' →
  v = v' ∧ l = l'.
Proof.
  intros Hl Hl' Hflag.
  destruct v as [s|], v' as [s'|]; cbn; intros Heq.
  - by injection Heq as -> ->.
  - subst l'. cbn in Hl'. done.
  - subst l. cbn in Hl. done.
  - done.
Qed.

Lemma switch_args_inj (flag : string) (flags : list string)
    (b b' : bool) (l l' : list string) :
  leads_with flags l → leads_with flags l' → flag ∉ flags →
  switch_args flag b ++ l = switch_args flag b' ++ l' →
  b = b' ∧ l = l'.
Proof.
  intros Hl Hl' Hflag.
  destruct b, b'; cbn; intros Heq.
  - by injection Heq as ->.
  - subst l'. cbn in Hl'. done.
  - subst l. cbn in Hl. done.
  - done.
Qed.

Lemma switch_args_last_inj (flag : string) (b b' : bool) :
  switch_args flag b = switch_args flag b' → b = b'.
Proof. by destruct b, b'. Qed.

(** The rest of the list after an optional argument starts with a later
    flag, if it starts at all. *)
Ltac leads :=
  repeat first
    [ apply leads_with_switch_last
    | apply leads_with_option
    | apply leads_with_switch ].

(** A flag is none of the listed later flags. *)
Ltac other_flag :=
  let H := fresh in
  intros H;
  repeat (apply elem_of_cons in H as [H|H]; [discriminate H|]);
  by apply elem_of_nil in H.

(** X11. The list determines the arguments it was built from: two calls
    of [build_cli_args] that give the same list were given the same
    config path, output directory, runner name, URL, backend and switches,
    and process count, machine count and machine rank that are equal
    after [str] (an int and the string of its decimal writing give the
    same list). *)
Theorem build_cli_args_inj config_path output_dir runner_name num_processes
    num_machines machine_rank dist_url dist_backend eval_only resume
    config_path' output_dir' runner_name' num_processes' num_machines'
    machine_rank' dist_url' dist_backend' eval_only' resume' :
  build_cli_args config_path output_dir runner_name num_processes num_machines
    machine_rank dist_url dist_backend eval_only resume =
  build_cli_args config_path' output_dir' runner_name' num_processes'
    num_machines' machine_rank' dist_url' dist_backend' eval_only' resume' →
  config_path = config_path' ∧ output_dir = output_dir' ∧
  runner_name = runner_name' ∧
  str <$> num_processes = str <$> num_processes' ∧
  str <$> num_machines = str <$> num_machines' ∧
  str <$> machine_rank = str <$> machine_rank' ∧
  dist_url = dist_url' ∧ dist_backend = dist_backend' ∧
  eval_only = eval_only' ∧ resume = resume'.
Proof.
  rewrite !build_cli_args_pieces. cbn [app]. intros Heq.
  injection Heq as -> -> Heq.
  apply option_args_inj with (flags :=
    ["--num-processes"; "--num-machines"; "--machine-rank"; "--dist-url";
     "--dist-backend"; "--eval-only"; "--resume"]) in Heq as [-> Heq];
    [|leads..|other_flag].
  apply option_args_inj with (flags :=
    ["--num-machines"; "--machine-rank"; "--dist-url"; "--dist-backend";
     "--eval-only"; "--resume"]) in Heq as [Hnp Heq]; [|leads..|other_flag].
  apply option_args_inj with (flags :=
    ["--machine-rank"; "--dist-url"; "--dist-backend"; "--eval-only";
     "--resume"]) in Heq as [Hnm Heq]; [|leads..|other_flag].
  apply option_args_inj with (flags :=
    ["--dist-url"; "--dist-backend"; "--eval-only"; "--resume"])
    in Heq as [Hmr Heq]; [|leads..|other_flag].
  apply option_args_inj with (flags :=
    ["--dist-backend"; "--eval-only"; "--resume"])
    in Heq as [-> Heq]; [|leads..|other_flag].
  apply option_args_inj with (flags := ["--eval-only"; "--resume"])
    in Heq as [-> Heq]; [|leads..|other_flag].
  apply switch_args_inj with (flags := ["--resume"]) in Heq as [-> Heq];
    [|leads..|other_flag].
  apply switch_args_last_inj in Heq as ->.
  done.
Qed.

Lemma has_pair_here (flag v : string) (l : list string) :
  has_pair flag v (flag :: v :: l).
Proof. by exists [], l. Qed.

Lemma has_pair_cons (flag v t : string) (l : list string) :
  has_pair flag v l → has_pair flag v (t :: l).
Proof. intros (l1 & l2 & ->). by exists (t :: l1), l2. Qed.

Lemma has_pair_app_r (flag v : string) (pre l : list string) :
  has_pair flag v l → has_pair flag v (pre ++ l).
Proof.
  intros (l1 & l2 & ->). exists (pre ++ l1), l2. by rewrite <- app_assoc.
Qed.

(** X12. Every optional argument that is given shows in the list as its
    flag directly followed by its value, the value being [str] of the
    argument for the process count, the machine count and the machine
    rank. *)
Theorem build_cli_args_pairs config_path output_dir runner_name num_processes
    num_machines machine_rank dist_url dist_backend eval_only resume :
  let args :=
    build_cli_args config_path output_dir runner_name num_processes
      num_machines machine_rank dist_url dist_backend eval_only resume in
  (∀ v, runner_name = Some v → has_pair "--runner" v args) ∧
  (∀ v, num_processes = Some v → has_pair "--num-processes" (str v) args) ∧
  (∀ v, num_machines = Some v → has_pair "--num-machines" (str v) args) ∧
  (∀ v, machine_rank = Some v → has_pair "--machine-rank" (str v) args) ∧
  (∀ v, dist_url = Some v → has_pair "--dist-url" v args) ∧
  (∀ v, dist_backend = Some v → has_pair "--dist-backend" v args).
Proof.
  cbv zeta. rewrite build_cli_args_pieces.
  repeat split; intros v ->;
    cbn [fmap option_fmap option_map option_args app];
    repeat first
      [ apply has_pair_here | apply has_pair_cons | apply has_pair_app_r ].
Qed.

(** X13. The list has the four leading entries, two entries for each
    optional argument that is given and one for each switch that is set:
    an argument left at [None] and a switch left off add nothing. *)
Theorem build_cli_args_length config_path output_dir runner_name num_processes
    num_machines machine_rank dist_url dist_backend eval_only resume :
  length
    (build_cli_args config_path output_dir runner_name num_processes
       num_machines machine_rank dist_url dist_backend eval_only resume) =
  4 + 2 * (given runner_name + given num_processes + given num_machines
           + given machine_rank + given dist_url + given dist_backend)
    + (Nat.b2n eval_only + Nat.b2n resume).
Proof.
  by destruct runner_name, num_processes, num_machines, machine_rank, dist_url,
    dist_backend, eval_only, resume.
Qed.

(** X14. The switches come last: the list is the one built with both
    switches off, followed by [--eval-only] if [eval_only] and then by
    [--resume] if [resume]; so a list built with [resume] ends with
    [--resume], and one built with [eval_only] and without [resume] ends
    with [--eval-only]. *)
Theorem build_cli_args_switches_last config_path output_dir runner_name
    num_processes num_machines machine_rank dist_url dist_backend eval_only
    resume :
  let args :=
    build_cli_args config_path output_dir runner_name num_processes
      num_machines machine_rank dist_url dist_backend eval_only resume in
  args =
    build_cli_args config_path output_dir runner_name num_processes
      num_machines machine_rank dist_url dist_backend false false
    ++ switch_args "--eval-only" eval_only ++ switch_args "--resume" resume ∧
  (resume = true → last args = Some "--resume") ∧
  (eval_only = true → resume = false → last args = Some "--eval-only").
Proof.
  cbv zeta.
  assert (Hsplit :
    build_cli_args config_path output_dir runner_name num_processes
      num_machines machine_rank dist_url dist_backend eval_only resume =
    build_cli_args config_path output_dir runner_name num_processes
      num_machines machine_rank dist_url dist_backend false false
    ++ switch_args "--eval-only" eval_only ++ switch_args "--resume" resume).
  { rewrite !build_cli_args_pieces. cbn [switch_args].
    rewrite !app_nil_r. by rewrite <- !app_assoc. }
  split; [exact Hsplit|]. rewrite Hsplit. split.
  - intros ->. cbn [switch_args]. by rewrite !app_assoc, last_snoc.
  - intros -> ->. cbn [switch_args]. by rewrite app_nil_r, last_snoc.
Qed.

End BuildCliArgs.

(** ** More runs in the sample world *)

Section MoreSampleRuns.

Import Sample.

Lemma main_without_runner_witness :
  returned (out_trace (run answer (main cfg "/out" None true true) fresh))
    (setup_after_launch cfg "/out" None) () ∧
  out_result (run answer (main cfg "/out" None true true) fresh) =
    inl (PyExn "AttributeError"
           "'NoneType' object has no attribute 'build_model'").
Proof.
  assert (Hsetup :
    returned (out_trace (run answer (main cfg "/out" None true true) fresh))
      (setup_after_launch cfg "/out" None) ()).
  { unfold returned. vm_compute. left. reflexivity. }
  split; [exact Hsetup|].
  destruct (main_without_runner answer fresh cfg "/out" true true)
    as (_ & _ & _ & Hraises).
  exact (Hraises Hsetup).
Defined.

Lemma main_stops_at_first_failure_witness :
  out_result (train_run failing) = inl oom ∧
  (∃ pre c, out_trace (train_run failing) = pre ++ [Ev c (inl oom)] ∧
            no_call_raised pre) ∧
  out_result (train_run fresh) = inr train_result ∧
  no_call_raised (out_trace (train_run fresh)).
Proof.
  assert (Hfail : out_result (train_run failing) = inl oom)
    by (vm_compute; reflexivity).
  assert (Hrun : out_result (train_run fresh) = inr train_result)
    by (vm_compute; reflexivity).
  split; [exact Hfail|]. split.
  - exact (proj1 (main_stops_at_first_failure answer failing cfg "/out" runner
                    false false) oom Hfail).
  - split; [exact Hrun|].
    exact (proj2 (main_stops_at_first_failure answer fresh cfg "/out" runner
                    false false) train_result Hrun).
Defined.

Lemma main_train_leaves_checkpoints_alone_witness :
  out_result (train_run fresh) = inr train_result ∧
  calls_where is_cfg_get (out_trace (train_run fresh)) =
    [cfg_get cfg ["MODEL"; "DDP_FP16_GRAD_COMPRESS"];
     cfg_get cfg ["MODEL"; "DEVICE"];
     cfg_get cfg ["MODEL"; "DDP_FIND_UNUSED_PARAMETERS"];
     cfg_get cfg ["OUTPUT_DIR"]].
Proof.
  assert (Hrun : out_result (train_run fresh) = inr train_result)
    by (vm_compute; reflexivity).
  split; [exact Hrun|].
  destruct (main_train_leaves_checkpoints_alone answer fresh cfg "/out"
              (Some runner) false) as (_ & _ & Hreads).
  exact (Hreads train_result Hrun).
Defined.

Lemma main_eval_only_call_order_witness :
  out_result (eval_run true resumable) = inr eval_result ∧
  ∃ model checkpointer found weights (record : gmap string value),
    out_trace (eval_run true resumable) =
      [Ev (setup_after_launch cfg "/out" (Some runner)) (inr ());
       Ev (build_model runner cfg) (inr model);
       Ev (logger_info_model model) (inr ());
       Ev (build_checkpointer runner cfg model "/out") (inr checkpointer);
       Ev (has_checkpoint checkpointer) (inr found);
       Ev (cfg_get cfg ["MODEL"; "WEIGHTS"]) (inr weights);
       (if found
        then Ev (resume_or_load checkpointer weights true) (inr record)
        else Ev (load checkpointer weights) (inr record));
       Ev (model_eval model) (inr ());
       Ev (do_test runner cfg model (Some (dict_get record "iteration" VNone)))
         (inr (metrics eval_result));
       Ev (print_metrics_table (metrics eval_result)) (inr ())].
Proof.
  assert (Hrun : out_result (eval_run true resumable) = inr eval_result)
    by (vm_compute; reflexivity).
  split; [exact Hrun|].
  destruct (main_eval_only_call_order answer resumable cfg "/out" runner true
              eval_result Hrun)
    as (model & ck & found & weights & record & _ & Hlog).
  exists model, ck, found, weights, record. exact Hlog.
Defined.

Lemma main_train_call_order_witness :
  out_result (train_run fresh) = inr train_result ∧
  ∃ trained_cfgs cfg_output_dir before dumps,
    out_trace (train_run fresh) = before ++ dumps ∧
    calls dumps ≡ₚ dump_call cfg_output_dir <$> map_to_list trained_cfgs ∧
    no_call_raised dumps.
Proof.
  assert (Hrun : out_result (train_run fresh) = inr train_result)
    by (vm_compute; reflexivity).
  split; [exact Hrun|].
  destruct (main_train_call_order answer fresh cfg "/out" runner false
              train_result Hrun)
    as (device & local_rank & model & fp & fu & wrapped & trained & od & dumps
        & Hlog & Hdumps & Hok).
  exists trained, od. eexists. exists dumps.
  split; [|split; [exact Hdumps | exact Hok]].
  unfold train_run. rewrite Hlog. rewrite !app_assoc. reflexivity.
Defined.

Lemma main_prints_metrics_once_witness :
  out_result (train_run fresh) = inr train_result ∧
  calls_where is_print_metrics_table (out_trace (train_run fresh)) =
    [print_metrics_table (metrics train_result)].
Proof.
  assert (Hrun : out_result (train_run fresh) = inr train_result)
    by (vm_compute; reflexivity).
  split; [exact Hrun|].
  exact (main_prints_metrics_once answer fresh cfg "/out" (Some runner) false
           false train_result Hrun).
Defined.

Lemma run_with_cmdline_args_prepare_fails_witness :
  SampleCli.answer_without_config (prepare_for_launch args) fresh
    = (inl SampleCli.no_config, fresh) ∧
  run SampleCli.answer_without_config
    (run_with_cmdline_args launch_workers args) fresh =
    Out [Ev (prepare_for_launch args) (inl SampleCli.no_config)]
      (inl SampleCli.no_config) fresh.
Proof.
  assert (Hprep :
    SampleCli.answer_without_config (prepare_for_launch args) fresh
      = (inl SampleCli.no_config, fresh)) by reflexivity.
  split; [exact Hprep|].
  exact (run_with_cmdline_args_prepare_fails SampleCli.answer_without_config
           launch_workers args fresh fresh SampleCli.no_config Hprep).
Defined.

Lemma build_cli_args_inj_witness :
  build_cli_args "config.yaml" "/out" None (Some (AnInt 2)) None None None None
    true false =
  build_cli_args "config.yaml" "/out" None (Some (AStr "2")) None None None None
    true false ∧
  str <$> Some (AnInt 2) = str <$> Some (AStr "2").
Proof.
  assert (Hsame :
    build_cli_args "config.yaml" "/out" None (Some (AnInt 2)) None None None
      None true false =
    build_cli_args "config.yaml" "/out" None (Some (AStr "2")) None None None
      None true false) by (vm_compute; reflexivity).
  split; [exact Hsame|].
  exact (proj1 (proj2 (proj2 (proj2 (build_cli_args_inj _ _ _ _ _ _ _ _ _ _
                                       _ _ _ _ _ _ _ _ _ _ Hsame))))).
Defined.

Lemma build_cli_args_pairs_witness :
  has_pair "--num-machines" "4"
    (build_cli_args "config.yaml" "/out" (Some "my.Runner") None
       (Some (AnInt 4)) None None (Some "GLOO") false true).
Proof.
  exact (proj1 (proj2 (proj2 (build_cli_args_pairs "config.yaml" "/out"
                                (Some "my.Runner") None (Some (AnInt 4)) None
                                None (Some "GLOO") false true)))
           (AnInt 4) eq_refl).
Defined.

Lemma build_cli_args_switches_last_witness :
  last (build_cli_args "config.yaml" "/out" (Some "my.Runner") None
          (Some (AnInt 4)) None None (Some "GLOO") true true)
    = Some "--resume" ∧
  last (build_cli_args "config.yaml" "/out" (Some "my.Runner") None
          (Some (AnInt 4)) None None (Some "GLOO") true false)
    = Some "--eval-only".
Proof.
  split.
  - exact (proj1 (proj2 (build_cli_args_switches_last "config.yaml" "/out"
                           (Some "my.Runner") None (Some (AnInt 4)) None None
                           (Some "GLOO") true true)) eq_refl).
  - exact (proj2 (proj2 (build_cli_args_switches_last "config.yaml" "/out"
                           (Some "my.Runner") None (Some (AnInt 4)) None None
                           (Some "GLOO") true false)) eq_refl eq_refl).
Defined.

End MoreSampleRuns.
